(** * sparkle: the text-generation script, embedded and verified

    The repository is one Python script, [script.py]: it loads a
    text-generation pipeline from an external framework, calls it once on a
    fixed prompt and prints the text of the first returned record.

    The framework (model, tokenizer, sampler, device) is not part of the
    repository.  It is modelled as an arbitrary value of type [Framework]:
    functions over a hidden external state [Σ] that return either a Python
    exception or a value.  The script itself is a finite tree of interactions
    with that framework and with the process environment; [exec] runs it.

    A Python [str] is modelled by its UTF-8 form, as a [string] of bytes; the
    bytes [print] writes are the text in the encoding of the process's
    standard output. *)

From Stdlib Require Import ZArith String Ascii List Lia.
From stdpp Require Import base option list gmap strings.

Open Scope string_scope.
Open Scope Z_scope.

(** ** Python values used by the script *)

(** A Python [float] is a binary64 number; a finite one is a dyadic rational
    [mantissa * 2 ^ exponent]. *)
Record pyfloat : Type := PyFloat { mantissa : Z; exponent : Z }.

(** [scale_to e x] is the numerator of [x] over the denominator [2 ^ (- e)],
    for [e] at most the exponent of [x]. *)
Definition scale_to (e : Z) (x : pyfloat) : Z :=
  mantissa x * 2 ^ (exponent x - e).

Definition float_ltb (x y : pyfloat) : bool :=
  let e := Z.min (exponent x) (exponent y) in
  scale_to e x <? scale_to e y.

Definition float_leb (x y : pyfloat) : bool :=
  let e := Z.min (exponent x) (exponent y) in
  scale_to e x <=? scale_to e y.

Definition float_of_Z (n : Z) : pyfloat := PyFloat n 0.

(** The literal [0.7]: the binary64 number nearest to 7/10,
    [0x1.6666666666666p-1]. *)
Definition lit_0_7 : pyfloat := PyFloat 6305039478318694 (-53).

(** Exceptions.  The first four are raised inside the framework (the names are
    the spec's taxonomy; [FrameworkError] is any other exception of the
    framework); the next three are raised by the script's own expressions:
    [x.attr] on [None], [response[0]] on an empty list and [d[key]] on a
    missing key; the last is raised by [print] when the encoding of standard
    output cannot encode the text. *)
Inductive error : Type :=
| ModelLoadError
| DeviceError
| InvalidParameterError
| FrameworkError (name : string)
| AttributeError (attr : string)
| IndexError
| KeyError (key : string)
| UnicodeEncodeError.


(** The arguments of [pipeline(...)]. *)
Record GenerationConfig : Type := {
  task : string;
  model : string;
  device : Z
}.

(** The arguments of [generator(...)]. *)
Record GenerationRequest : Type := {
  prompt : string;
  do_sample : bool;
  min_length : Z;
  max_length : Z;
  temperature : pyfloat;
  num_return_sequences : Z;
  pad_token_id : option Z
}.

(** [generator.tokenizer]; its [eos_token_id] attribute is an integer or
    [None]. *)
Record Tokenizer : Type := { eos_token_id : option Z }.

(** One element of the returned list: a [dict] from keys to texts. *)
Abbreviation record := (gmap string string).

(** ** Standard output *)

Definition LF : ascii := ascii_of_nat 10.

(** *** Encodings

    An encoder takes a text (its UTF-8 form) to the bytes written, or to
    [None] when the encoding has no byte for one of its characters. *)

Definition encode_utf8 (s : string) : option string := Some s.

Fixpoint all_ascii (s : string) : bool :=
  match s with
  | EmptyString => true
  | String c s' => (N_of_ascii c <? 128)%N && all_ascii s'
  end.

(** 'ascii': the characters below U+0080, one byte each. *)
Definition encode_ascii (s : string) : option string :=
  if all_ascii s then Some s else None.

(** 'latin-1': the characters below U+0100, one byte each.  In UTF-8 the
    characters U+0080 to U+00FF are the two-byte sequences led by 0xC2 and
    0xC3. *)
Fixpoint encode_latin1 (s : string) : option string :=
  match s with
  | EmptyString => Some EmptyString
  | String c s' =>
      let n := N_of_ascii c in
      if (n <? 128)%N then String c <$> encode_latin1 s'
      else if (n =? 194)%N || (n =? 195)%N then
        match s' with
        | String d s'' =>
            let m := N_of_ascii d in
            if (128 <=? m)%N && (m <? 192)%N then
              String (ascii_of_N ((n - 192) * 64 + (m - 128)))
                <$> encode_latin1 s''
            else None
        | EmptyString => None
        end
      else None
  end.



(** ** The framework, the process and the script's interactions *)

Section Invoker.

(** The state of everything outside the script: the model hub, the device,
    the sampler's random source. *)
Context {Σ : Type}.

(** What a call into the framework gives back: an exception or a value, and
    the next external state. *)
Definition outcome (A : Type) : Type := (error + A) * Σ.

(** The object [pipeline(...)] returns: its [tokenizer] attribute ([None] or
    a tokenizer) and what calling it does. *)
Record Generator : Type := {
  tokenizer : option Tokenizer;
  call : GenerationRequest -> Σ -> outcome (list record)
}.

(** [transformers.pipeline]. *)
Record Framework : Type := {
  pipeline : GenerationConfig -> Σ -> outcome Generator
}.

(** What the operating system hands to the process, started as
    [python script.py]: the arguments, the environment, whether a standard
    output is attached (without one [sys.stdout] is [None]), and the encoder
    the interpreter resolves for standard output when [PYTHONIOENCODING] does
    not name one of the encodings modelled below (from the locale, the UTF-8
    mode, or another spelling or error handler in that variable). *)
Record Process : Type := {
  argv : list string;
  environ : gmap string string;
  stdout_open : bool;
  default_encode : string -> option string
}.

(** The encoder of [sys.stdout]: the one [PYTHONIOENCODING] names, else the
    default of the process. *)
Definition stdout_encode (ps : Process) : string -> option string :=
  match environ ps !! "PYTHONIOENCODING" with
  | Some name =>
      if String.eqb name "ascii" then encode_ascii
      else if String.eqb name "utf-8" then encode_utf8
      else if String.eqb name "latin-1" then encode_latin1
      else default_encode ps
  | None => default_encode ps
  end.

(** What [print(s)] writes: the text and a line feed, encoded.  Without a
    standard output [print] returns having written nothing; when the encoder
    has no byte for a character it raises and nothing is written. *)
Definition print_output (ps : Process) (s : string) : error + string :=
  if stdout_open ps then
    match stdout_encode ps (s +:+ String LF EmptyString) with
    | Some bytes => inr bytes
    | None => inl UnicodeEncodeError
    end
  else inr EmptyString.

(** The interactions a Python program can have here: calls into the
    framework, [print], and reads of [sys.argv] and [os.environ]. *)
Inductive eventE : Type -> Type :=
| EvPipeline (cfg : GenerationConfig) : eventE Generator
| EvCall (g : Generator) (req : GenerationRequest) : eventE (list record)
| EvPrint (s : string) : eventE unit
| EvArgv : eventE (list string)
| EvEnviron (name : string) : eventE (option string).

(** A program: a finite tree of interactions that ends with a value or an
    uncaught exception. *)
Inductive prog (A : Type) : Type :=
| Ret (a : A)
| Raise (e : error)
| Vis {X : Type} (ev : eventE X) (k : X -> prog A).

Arguments Ret {A} a.
Arguments Raise {A} e.
Arguments Vis {A X} ev k.

Fixpoint bind {A B : Type} (p : prog A) (f : A -> prog B) : prog B :=
  match p with
  | Ret a => f a
  | Raise e => Raise e
  | Vis ev k => Vis ev (fun x => bind (k x) f)
  end.

Definition trigger {X : Type} (ev : eventE X) : prog X := Vis ev Ret.

#[local] Notation "x <- p ;; q" := (bind p (fun x => q))
  (at level 100, p at next level, right associativity).

(** *** The script's expressions that can raise *)

(** [generator.tokenizer.eos_token_id] *)
Definition tokenizer_eos_token_id (generator : Generator) : prog (option Z) :=
  match tokenizer generator with
  | None => Raise (AttributeError "eos_token_id")
  | Some t => Ret (eos_token_id t)
  end.

(** [response[0]] *)
Definition first_item (response : list record) : prog record :=
  match response with
  | [] => Raise IndexError
  | r :: _ => Ret r
  end.

(** [r['generated_text']] *)
Definition getitem (r : record) (key : string) : prog string :=
  match r !! key with
  | None => Raise (KeyError key)
  | Some v => Ret v
  end.

(** *** The three stages *)

(** script.py, lines 4-8. *)
Definition config : GenerationConfig :=
  {| task := "text-generation";
     model := "EleutherAI/gpt-neo-2.7B";
     device := 0 |}.

Definition Initialize (cfg : GenerationConfig) : prog Generator :=
  trigger (EvPipeline cfg).

(** script.py, lines 11-19: the keyword arguments, with the value read from
    the tokenizer. *)
Definition request (eos : option Z) : GenerationRequest :=
  {| prompt := "EleutherAI has";
     do_sample := true;
     min_length := 50;
     max_length := 100;
     temperature := lit_0_7;
     num_return_sequences := 1;
     pad_token_id := eos |}.

Definition Generate (generator : Generator) (req : GenerationRequest)
  : prog (list record) :=
  trigger (EvCall generator req).

(** script.py, line 21: [print(response[0]['generated_text'])].  The
    argument is evaluated before [print] is called. *)
Definition Report (response : list record) : prog unit :=
  r <- first_item response ;;
  text <- getitem r "generated_text" ;;
  trigger (EvPrint text).

(** The module body. *)
Definition script : prog unit :=
  generator <- Initialize config ;;
  eos <- tokenizer_eos_token_id generator ;;
  response <- Generate generator (request eos) ;;
  Report response.

(** ** Running a program *)

(** The record of a call, in the order the calls were made: a call into the
    framework when it is made, a [print] when it has returned. *)
Inductive invocation : Type :=
| Initialized (cfg : GenerationConfig)
| Generated (g : Generator) (req : GenerationRequest)
| Reported (s : string).

Inductive stage : Type := StInitialize | StGenerate | StReport.

Definition stage_of (i : invocation) : stage :=
  match i with
  | Initialized _ => StInitialize
  | Generated _ _ => StGenerate
  | Reported _ => StReport
  end.

#[global] Instance stage_eq_dec : EqDecision stage.
Proof. solve_decision. Defined.

(** The state of a run: the external state, the bytes written to standard
    output, and the calls made so far.  Standard error, where the interpreter
    reports an uncaught exception, is not part of the model. *)
Record State : Type := {
  ext : Σ;
  stdout : string;
  trace : list invocation
}.

Definition initial (σ : Σ) : State :=
  {| ext := σ; stdout := ""; trace := [] |}.

Definition record_call (i : invocation) (σ : Σ) (st : State) : State :=
  {| ext := σ; stdout := stdout st; trace := trace st ++ [i] |}.

Definition handle (fw : Framework) (ps : Process) {X : Type} (ev : eventE X)
  (st : State) : (error + X) * State :=
  match ev in eventE T return (error + T) * State with
  | EvPipeline cfg =>
      let '(r, σ) := pipeline fw cfg (ext st) in
      (r, record_call (Initialized cfg) σ st)
  | EvCall g req =>
      let '(r, σ) := call g req (ext st) in
      (r, record_call (Generated g req) σ st)
  | EvPrint s =>
      match print_output ps s with
      | inl e => (inl e, st)
      | inr bytes =>
          (inr tt,
           {| ext := ext st; stdout := stdout st +:+ bytes;
              trace := trace st ++ [Reported s] |})
      end
  | EvArgv => (inr (argv ps), st)
  | EvEnviron name => (inr (environ ps !! name), st)
  end.

Fixpoint exec {A : Type} (fw : Framework) (ps : Process) (p : prog A)
  (st : State) : (error + A) * State :=
  match p with
  | Ret a => (inr a, st)
  | Raise e => (inl e, st)
  | Vis ev k =>
      match handle fw ps ev st with
      | (inl e, st') => (inl e, st')
      | (inr x, st') => exec fw ps (k x) st'
      end
  end.

(** One run of the process. *)
Definition run (fw : Framework) (ps : Process) (σ : Σ)
  : (error + unit) * State :=
  exec fw ps script (initial σ).

End Invoker.

Arguments Ret {Σ A} a.
Arguments Raise {Σ A} e.
Arguments Vis {Σ A X} ev k.
Arguments Generator Σ : clear implicits.
Arguments Framework Σ : clear implicits.
Arguments State Σ : clear implicits.
Arguments prog Σ A : clear implicits.
Arguments eventE Σ X : clear implicits.
Arguments invocation Σ : clear implicits.

(** ** The spec's vocabulary *)



(** The text of a record begins with [p]. *)
Definition text_begins_with (p : string) (r : record) : Prop :=
  exists text, r !! "generated_text" = Some text /\ String.prefix p text = true.

(** The preconditions the spec puts on a request: minimum length at most
    maximum length, temperature in (0, 1], a positive sequence count. *)
Definition valid_request (req : GenerationRequest) : bool :=
  (min_length req <=? max_length req)
  && float_ltb (float_of_Z 0) (temperature req)
  && float_leb (temperature req) (float_of_Z 1)
  && (0 <? num_return_sequences req).

(** Generate as the spec words it: the request is checked first, and
    [InvalidParameterError] is raised for one that breaks a precondition. *)
Definition checked_Generate {Σ : Type} (generator : Generator Σ)
  (req : GenerationRequest) : prog Σ (list record) :=
  if valid_request req then Generate generator req
  else Raise InvalidParameterError.


(** An event that reads what the operating system handed to the process. *)
Definition is_input {Σ X : Type} (ev : eventE Σ X) : bool :=
  match ev with
  | EvArgv | EvEnviron _ => true
  | _ => false
  end.

(** A program none of whose interactions reads [sys.argv] or [os.environ]. *)
Inductive reads_no_input {Σ A : Type} : prog Σ A -> Prop :=
| rni_Ret (a : A) : reads_no_input (Ret a)
| rni_Raise (e : error) : reads_no_input (Raise e)
| rni_Vis {X : Type} (ev : eventE Σ X) (k : X -> prog Σ A) :
    is_input ev = false ->
    (forall x, reads_no_input (k x)) ->
    reads_no_input (Vis ev k).

(** What the trace of a run says about a call. *)
Definition constants_of_call {Σ : Type} (i : invocation Σ) : Prop :=
  match i with
  | Initialized cfg =>
      task cfg = "text-generation" /\
      model cfg = "EleutherAI/gpt-neo-2.7B" /\
      device cfg = 0
  | Generated _ req =>
      prompt req = "EleutherAI has" /\
      do_sample req = true /\
      min_length req = 50 /\
      max_length req = 100 /\
      temperature req = lit_0_7 /\
      num_return_sequences req = 1
  | Reported _ => True
  end.

(** ** Sample frameworks

    Small frameworks to run the script against.  Their external state is the
    number of calls served. *)

(** A generator that validates nothing: it returns as many records as asked
    for, each the prompt followed by [continuation]. *)
Definition echo_generator (eos : option Z) (continuation : string)
  : Generator nat :=
  {| tokenizer := Some {| eos_token_id := eos |};
     call := fun req n =>
       (inr (replicate (Z.to_nat (num_return_sequences req))
               ({[ "generated_text" := prompt req +:+ continuation ]} : record)),
        S n) |}.

Definition echo_framework (eos : option Z) (continuation : string)
  : Framework nat :=
  {| pipeline := fun _ n => (inr (echo_generator eos continuation), S n) |}.

(** The hub cannot be reached. *)
Definition offline_framework : Framework nat :=
  {| pipeline := fun _ n => (inl ModelLoadError, S n) |}.

(** Sample processes.  The first two have a UTF-8 standard output and differ
    in their arguments and environment; the next two differ from the first
    in one environment variable only; the last has no standard output. *)
Definition no_process : Process :=
  {| argv := []; environ := ∅;
     stdout_open := true; default_encode := encode_utf8 |}.

Definition busy_process : Process :=
  {| argv := ["script.py"; "--prompt"; "hello"];
     environ := {[ "CUDA_VISIBLE_DEVICES" := "1" ]};
     stdout_open := true; default_encode := encode_utf8 |}.

Definition ascii_process : Process :=
  {| argv := []; environ := {[ "PYTHONIOENCODING" := "ascii" ]};
     stdout_open := true; default_encode := encode_utf8 |}.

Definition latin1_process : Process :=
  {| argv := []; environ := {[ "PYTHONIOENCODING" := "latin-1" ]};
     stdout_open := true; default_encode := encode_utf8 |}.

Definition closed_process : Process :=
  {| argv := []; environ := ∅;
     stdout_open := false; default_encode := encode_utf8 |}.

(** A continuation with a character outside ASCII. *)
Definition accented_continuation : string := " café".

Definition accented_framework : Framework nat :=
  echo_framework (Some 50256) accented_continuation.


(** A program that does read its arguments, for comparison. *)
Definition print_argv {Σ : Type} : prog Σ unit :=
  bind (trigger EvArgv) (fun args => trigger (EvPrint (String.concat " " args))).



(** The pad token of a recorded call is the one of the tokenizer of the
    generator [pipeline] returned. *)
Definition pad_from_tokenizer {Σ : Type} (fw : Framework Σ) (σ : Σ)
  (i : invocation Σ) : Prop :=
  match i with
  | Generated g req =>
      (exists σ1, pipeline fw config σ = (inr g, σ1)) /\
      (exists t, tokenizer g = Some t /\ pad_token_id req = eos_token_id t)
  | _ => True
  end.

Definition valid_call {Σ : Type} (i : invocation Σ) : Prop :=
  match i with
  | Generated _ req => valid_request req = true
  | _ => True
  end.

(** A generator without tokenizer; its call would succeed. *)
Definition bare_generator : Generator nat :=
  {| tokenizer := None;
     call := fun req n =>
       (inr [({[ "generated_text" := prompt req ]} : record)], S n) |}.

Definition bare_framework : Framework nat :=
  {| pipeline := fun _ n => (inr bare_generator, S n) |}.



(** * Properties *)

(** ** Floats, lines and encoders *)

(** [lit_0_7] is within half a unit in the last place of 7/10: it is the
    binary64 number the literal [0.7] denotes. *)
Lemma lit_0_7_nearest :
  Z.abs (7 * 2 ^ 53 - 10 * mantissa lit_0_7) <= 5 /\ exponent lit_0_7 = -53
  /\ 2 ^ 52 <= mantissa lit_0_7 < 2 ^ 53.
Proof. vm_compute. repeat split; congruence. Qed.







(** ** The shape of a run *)

Section Run.

Context {Σ : Type}.
Implicit Types (fw : Framework Σ) (ps : Process) (σ : Σ) (st : State Σ).

(** What [Report] does, case by case. *)
Lemma exec_Report fw ps st (response : list record) :
  exec fw ps (Report response) st =
  match response with
  | [] => (inl IndexError, st)
  | r :: _ =>
      match r !! "generated_text" with
      | None => (inl (KeyError "generated_text"), st)
      | Some text =>
          match print_output ps text with
          | inl e => (inl e, st)
          | inr bytes =>
              (inr tt,
               {| ext := ext st; stdout := stdout st +:+ bytes;
                  trace := trace st ++ [Reported text] |})
          end
      end
  end.
Proof.
  destruct response as [|r rest]; [reflexivity|].
  unfold Report. simpl. unfold getitem.
  destruct (r !! "generated_text") as [text|]; [|reflexivity].
  simpl. destruct (print_output ps text); reflexivity.
Qed.

(** A run, case by case on what the framework and [print] answer. *)
Lemma run_unfold fw ps σ :
  run fw ps σ =
  match pipeline fw config σ with
  | (inl e, σ1) =>
      (inl e, {| ext := σ1; stdout := ""; trace := [Initialized config] |})
  | (inr g, σ1) =>
      match tokenizer g with
      | None =>
          (inl (AttributeError "eos_token_id"),
           {| ext := σ1; stdout := ""; trace := [Initialized config] |})
      | Some t =>
          let req := request (eos_token_id t) in
          let called := [Initialized config; Generated g req] in
          match call g req σ1 with
          | (inl e, σ2) =>
              (inl e, {| ext := σ2; stdout := ""; trace := called |})
          | (inr [], σ2) =>
              (inl IndexError, {| ext := σ2; stdout := ""; trace := called |})
          | (inr (r :: _), σ2) =>
              match r !! "generated_text" with
              | None =>
                  (inl (KeyError "generated_text"),
                   {| ext := σ2; stdout := ""; trace := called |})
              | Some text =>
                  match print_output ps text with
                  | inl e =>
                      (inl e, {| ext := σ2; stdout := ""; trace := called |})
                  | inr bytes =>
                      (inr tt,
                       {| ext := σ2; stdout := bytes;
                          trace := called ++ [Reported text] |})
                  end
              end
          end
      end
  end.
Proof.
  unfold run, script, Initialize, trigger. simpl.
  destruct (pipeline fw config σ) as [[e|g] σ1]; [reflexivity|].
  unfold tokenizer_eos_token_id.
  destruct (tokenizer g) as [t|]; [|reflexivity].
  simpl. destruct (call g (request (eos_token_id t)) σ1) as [[e|res] σ2];
    [reflexivity|].
  rewrite exec_Report. destruct res as [|r rest]; [reflexivity|].
  destruct (r !! "generated_text") as [text|]; [|reflexivity].
  destruct (print_output ps text); reflexivity.
Qed.


Lemma reads_no_input_bind {A B : Type} (p : prog Σ A) (f : A -> prog Σ B) :
  reads_no_input p -> (forall a, reads_no_input (f a)) ->
  reads_no_input (bind p f).
Proof.
  intros Hp Hf. induction Hp as [a|e|X ev k Hev _ IH]; simpl.
  - apply Hf.
  - constructor.
  - constructor; [exact Hev | exact IH].
Qed.

Lemma reads_no_input_Report (response : list record) :
  reads_no_input (Report (Σ := Σ) response).
Proof.
  unfold Report. apply reads_no_input_bind.
  - destruct response; constructor.
  - intros r. apply reads_no_input_bind.
    + unfold getitem. destruct (r !! "generated_text"); constructor.
    + intros text. constructor; [reflexivity | intros; constructor].
Qed.

Lemma reads_no_input_script : reads_no_input (script (Σ := Σ)).
Proof.
  unfold script. apply reads_no_input_bind.
  - constructor; [reflexivity | intros; constructor].
  - intros g. apply reads_no_input_bind.
    + unfold tokenizer_eos_token_id. destruct (tokenizer g); constructor.
    + intros eos. apply reads_no_input_bind.
      * constructor; [reflexivity | intros; constructor].
      * apply reads_no_input_Report.
Qed.

End Run.

(** ** The fixed run *)

(** A property of every call of a short, explicit trace; [H] proves it of the
    Generate call. *)
Ltac trace_forall H :=
  repeat first
    [ exact I | exact H | apply List.Forall_nil | apply List.Forall_cons ].

(** The seven ways a run can go: [pipeline] fails; the call fails; the
    result is empty; [print] fails; [print] returns; the first record has no
    text; the generator has no tokenizer. *)
Ltac run_cases fw ps σ :=
  rewrite run_unfold;
  destruct (pipeline fw config σ) as [[?e|?g] ?σ1] eqn:?Hp; simpl;
  [| match goal with
     | g : Generator _ |- _ =>
         destruct (tokenizer g) as [?t|] eqn:?Ht; simpl;
         [ match goal with
           | t : Tokenizer, σ1 : _ |- _ =>
               destruct (call g (request (eos_token_id t)) σ1)
                 as [[?e|[|?r ?rest]] ?σ2] eqn:?Hc; simpl;
               [ | | match goal with
                     | r : gmap string string |- _ =>
                         destruct (r !! "generated_text") as [?text|] eqn:?Hr;
                         simpl;
                         [ match goal with
                           | text : string |- _ =>
                               destruct (print_output ps text)
                                 as [?e|?bytes] eqn:?Hw; simpl
                           end | ]
                     end ]
           end | ]
     end ].

Section Claims.

Context {Σ : Type}.
Implicit Types (fw : Framework Σ) (ps : Process) (σ : Σ) (st : State Σ).






(** C2: the script reads neither [sys.argv] nor [os.environ], and whatever
    the process and the framework are, it builds its calls from the embedded
    constants.  The first call of every run is [pipeline] with the task, the
    model "EleutherAI/gpt-neo-2.7B" and device 0; when [pipeline] returns a
    generator with a tokenizer, the second call is that generator with the
    prompt "EleutherAI has", sampling on, minimum length 50, maximum length
    100, temperature 0.7, one returned sequence and the pad token of the
    tokenizer; otherwise no further call is made.  No recorded call carries
    other values. *)
Theorem C2_request_from_constants fw ps σ :
  reads_no_input (script (Σ := Σ)) /\
  Forall constants_of_call (trace (run fw ps σ).2) /\
  trace (run fw ps σ).2 !! 0%nat
    = Some (Initialized
              {| task := "text-generation";
                 model := "EleutherAI/gpt-neo-2.7B";
                 device := 0 |}) /\
  match pipeline fw
          {| task := "text-generation";
             model := "EleutherAI/gpt-neo-2.7B";
             device := 0 |} σ
  with
  | (inr g, _) =>
      match tokenizer g with
      | Some t =>
          trace (run fw ps σ).2 !! 1%nat
          = Some (Generated g
                    {| prompt := "EleutherAI has";
                       do_sample := true;
                       min_length := 50;
                       max_length := 100;
                       temperature := lit_0_7;
                       num_return_sequences := 1;
                       pad_token_id := eos_token_id t |})
      | None => length (trace (run fw ps σ).2) = 1%nat
      end
  | (inl _, _) => length (trace (run fw ps σ).2) = 1%nat
  end.
Proof.
  split; [apply reads_no_input_script|].
  change {| task := "text-generation"; model := "EleutherAI/gpt-neo-2.7B";
            device := 0 |} with config.
  run_cases fw ps σ;
    (split; [repeat constructor|]); (split; reflexivity).
Qed.


(** C9: the pad token of the request is read from the tokenizer of the
    generator Initialize returned.  When that generator has a tokenizer, the
    second call of the run is Generate on that generator with
    [pad_token_id] equal to the tokenizer's [eos_token_id]; and no recorded
    call carries any other pad token. *)
Theorem C9_pad_token_from_tokenizer fw ps σ :
  Forall (pad_from_tokenizer fw σ) (trace (run fw ps σ).2) /\
  match pipeline fw config σ with
  | (inr g, _) =>
      match tokenizer g with
      | Some t =>
          exists req,
            trace (run fw ps σ).2 !! 1%nat = Some (Generated g req) /\
            pad_token_id req = eos_token_id t
      | None => trace (run fw ps σ).2 = [Initialized config]
      end
  | (inl _, _) => trace (run fw ps σ).2 = [Initialized config]
  end.
Proof.
  run_cases fw ps σ;
    try (split; [repeat constructor | reflexivity]);
    (assert (Hpad : pad_from_tokenizer fw σ
                     (Generated g (request (eos_token_id t))))
       by (split; [exists σ1; exact Hp
                  | exists t; split; [exact Ht | reflexivity]]));
    (split; [trace_forall Hpad | eexists; split; reflexivity]).
Qed.

(** C10: the request the script builds meets the spec's preconditions of
    Generate whatever the pad token is (50 <= 100, 0 < 0.7 <= 1, 0 < 1); on
    it, Generate with the spec's check in front is the same program as the
    script's Generate, so the check's error branch is never taken; and every
    Generate call recorded in a run carries a valid request. *)
Theorem C10_request_is_valid fw ps σ :
  (forall eos, valid_request (request eos) = true) /\
  (forall (g : Generator Σ) eos,
     checked_Generate g (request eos) = Generate g (request eos)) /\
  Forall valid_call (trace (run fw ps σ).2).
Proof.
  split; [reflexivity|]. split; [reflexivity|].
  run_cases fw ps σ; repeat constructor.
Qed.

End Claims.

(** ** The claims on sample runs *)



(** The same assumptions hold of [accented_framework]; under an ASCII
    standard output the run ends with the error of [print] and prints
    nothing, and under Latin-1 it prints other bytes than under UTF-8. *)
Example accented_runs :
  Forall (text_begins_with "EleutherAI has")
    [({[ "generated_text" := "EleutherAI has café" ]} : record)] /\
  (run accented_framework ascii_process 0%nat).1 = inl UnicodeEncodeError /\
  stdout (run accented_framework ascii_process 0%nat).2 = "" /\
  stdout (run accented_framework no_process 0%nat).2
    = "EleutherAI has café" +:+ String LF "" /\
  stdout (run accented_framework latin1_process 0%nat).2
    = "EleutherAI has caf" +:+ String (ascii_of_nat 233) (String LF "").
Proof.
  split; [|repeat split].
  apply List.Forall_cons; [|apply List.Forall_nil].
  exists "EleutherAI has café". split; reflexivity.
Qed.








(** ** Sanity checks of the model *)

(** A program that does read its arguments is told apart by them: the
    noninterference of the script is not an artefact of [exec]. *)
Example print_argv_interferes :
  stdout (exec offline_framework no_process print_argv (initial 0%nat)).2
  <> stdout (exec offline_framework busy_process print_argv (initial 0%nat)).2.
Proof. vm_compute. discriminate. Qed.

(** The pad token follows the tokenizer: two frameworks whose tokenizers
    differ lead to two different requests. *)
Example pad_token_follows_tokenizer :
  trace (run (echo_framework (Some 50256) "") no_process 0%nat).2 !! 1%nat
    = Some (Generated (echo_generator (Some 50256) "") (request (Some 50256)))
  /\
  trace (run (echo_framework (Some 2) "") no_process 0%nat).2 !! 1%nat
    = Some (Generated (echo_generator (Some 2) "") (request (Some 2)))
  /\
  trace (run (echo_framework None "") no_process 0%nat).2 !! 1%nat
    = Some (Generated (echo_generator None "") (request None)).
Proof. repeat split. Qed.

(** A run against a hub that cannot be reached: the error of Initialize ends
    the process, and nothing is printed. *)
Example offline_run :
  run offline_framework busy_process 0%nat
  = (inl ModelLoadError,
     {| ext := 1%nat; stdout := ""; trace := [Initialized config] |}).
Proof. reflexivity. Qed.

(** Without a standard output the run completes and nothing is written. *)
Example closed_stdout_run :
  (run accented_framework closed_process 0%nat).1 = inr tt /\
  stdout (run accented_framework closed_process 0%nat).2 = "" /\
  map stage_of (trace (run accented_framework closed_process 0%nat).2)
  = [StInitialize; StGenerate; StReport].
Proof. repeat split. Qed.

(** ** Edge behaviour of the script *)

Section Edges.

Context {Σ : Type}.
Implicit Types (fw : Framework Σ) (ps : Process) (σ : Σ) (st : State Σ).

(** X1: when the first record has no 'generated_text' key, Report fails with
    KeyError('generated_text') and leaves the state as it was: nothing is
    printed, and the records after the first are not consulted for a text. *)
Theorem X1_Report_missing_text fw ps st (r : record) (rest : list record) :
  r !! "generated_text" = None ->
  exec fw ps (Report (r :: rest)) st = (inl (KeyError "generated_text"), st).
Proof. intros Hr. rewrite exec_Report, Hr. reflexivity. Qed.

(** X2: when the generator [pipeline] returned has no tokenizer, the read of
    [generator.tokenizer.eos_token_id] fails while the arguments are being
    evaluated: the process ends with AttributeError, the generator has not
    been called, and nothing has been printed. *)
Theorem X2_missing_tokenizer fw ps σ (g : Generator Σ) σ1 :
  pipeline fw config σ = (inr g, σ1) ->
  tokenizer g = None ->
  run fw ps σ =
    (inl (AttributeError "eos_token_id"),
     {| ext := σ1; stdout := ""; trace := [Initialized config] |}).
Proof. intros Hp Ht. rewrite run_unfold, Hp, Ht. reflexivity. Qed.





End Edges.

(** X1 on a result whose second record does have a text. *)
Lemma X1_Report_missing_text_witness :
  exec offline_framework no_process
    (Report [({[ "score" := "0.5" ]} : record);
             ({[ "generated_text" := "second" ]} : record)])
    (initial 0%nat)
  = (inl (KeyError "generated_text"), initial 0%nat).
Proof.
  apply (X1_Report_missing_text offline_framework no_process (initial 0%nat)
           ({[ "score" := "0.5" ]} : record)
           [({[ "generated_text" := "second" ]} : record)]).
  reflexivity.
Defined.

(** X2 on the generator without tokenizer. *)
Lemma X2_missing_tokenizer_witness :
  run bare_framework no_process 0%nat =
    (inl (AttributeError "eos_token_id"),
     {| ext := 1%nat; stdout := ""; trace := [Initialized config] |}).
Proof.
  apply (X2_missing_tokenizer bare_framework no_process 0%nat
           bare_generator 1%nat); reflexivity.
Defined.



